(** * Agents of the ECG assistant: message routing, agent executors,
      topic wiring and the chat window's polling loop.

    Shallow embedding of [src/agent/src/agents.rs] and
    [src/agent/src/gui.rs].  Strings are Stdlib [string]s (lists of ASCII
    characters); the external collaborators (the language model, the
    capture utilities, the file system, the cluster runtime's publish) are
    modelled as explicit inputs so that each of their outcomes can be
    chosen. *)

From Stdlib Require Import String Ascii List Bool Lia.
Import ListNotations.
Open Scope string_scope.

(** ** Rust [str] operations used by the code *)

Module Str.

(** [s.starts_with(pre)] *)
Fixpoint starts_with (s pre : string) {struct pre} : bool :=
  match pre, s with
  | EmptyString, _ => true
  | String c p, String d s' => Ascii.eqb c d && starts_with s' p
  | String _ _, EmptyString => false
  end.

(** [s.contains(pat)]: some suffix of [s] starts with [pat]. *)
Fixpoint contains (s pat : string) : bool :=
  starts_with s pat ||
  match s with
  | EmptyString => false
  | String _ s' => contains s' pat
  end.

(** [s.strip_prefix(pre)] *)
Fixpoint strip_prefix (s pre : string) {struct pre} : option string :=
  match pre, s with
  | EmptyString, _ => Some s
  | String c p, String d s' => if Ascii.eqb c d then strip_prefix s' p else None
  | String _ _, EmptyString => None
  end.

(** ASCII whitespace, as recognised by [str::trim] on ASCII text. *)
Definition is_ws (c : ascii) : bool :=
  match nat_of_ascii c with
  | 32 | 9 | 10 | 11 | 12 | 13 => true
  | _ => false
  end.

(** [s.trim().is_empty()] *)
Fixpoint trim_is_empty (s : string) : bool :=
  match s with
  | EmptyString => true
  | String c s' => is_ws c && trim_is_empty s'
  end.

End Str.

(** ** Tasks, topics and events *)

(** [autoagents::core::agent::task::Task]; only its prompt is read. *)
Record Task := mkTask { prompt : string }.

(** [Task::new(p)] *)
Definition Task_new (p : string) : Task := mkTask p.

(** A [Topic::<Task>] is identified by its name. *)
Definition Topic := string.

(** Result values carried by [Event::TaskComplete]: the JSON value either
    deserialises as a [ReActAgentOutput] (we keep its [response]), or as a
    plain JSON string, or as neither. *)
Inductive Value :=
| VReAct (response : string)
| VString (s : string)
| VOther.

Inductive TaskResult :=
| TRValue (v : Value)
| TRFailure (msg : string).

(** The events seen by [handle_events]. *)
Inductive Event :=
| NewTask (actor_id : nat) (task : Task)
| ToolCallRequested (id : nat) (tool_name : string) (arguments : string)
| TaskComplete (result : TaskResult)
| OtherEvent.

(** ** The routing test of [handle_events] (agents.rs, lines 745-750) *)

(** The condition of the [if] in the [NewTask] arm. *)
Definition is_agent_result (p : string) : bool :=
  Str.starts_with p "### "
  || Str.contains p "Analysis Report"
  || Str.contains p "Key Insights"
  || Str.contains p "Strategic Recommendations"
  || Str.contains p "Executive Summary"
  || Str.contains p "RESEARCH DATA FOR ANALYSIS".

Inductive RoutingDecision := UserQuery | AgentResult.

Definition classify (p : string) : RoutingDecision :=
  if is_agent_result p then AgentResult else UserQuery.

(** The keyword phrases tested with [contains], in source order. *)
Definition keyword_phrases : list string :=
  ["Analysis Report"; "Key Insights"; "Strategic Recommendations";
   "Executive Summary"; "RESEARCH DATA FOR ANALYSIS"].

(** One iteration of the loop of [handle_events]: the strings it sends on
    [response_sender] for one event. *)
Definition handle_event (is_analysis_agent : bool) (e : Event) : list string :=
  match e with
  | NewTask _ task =>
      if negb is_analysis_agent then
        if is_agent_result task.(prompt) then [task.(prompt)] else []
      else []
  | ToolCallRequested _ _ _ => []
  | TaskComplete (TRValue (VReAct resp)) => [resp]
  | TaskComplete (TRValue (VString out)) =>
      if negb is_analysis_agent then [out] else []
  | TaskComplete (TRValue VOther) => []
  | TaskComplete (TRFailure _) => []
  | OtherEvent => []
  end.

(** The whole event loop: the strings sent, in order. *)
Definition handle_events (is_analysis_agent : bool) (es : list Event) : list string :=
  flat_map (handle_event is_analysis_agent) es.

(** ** Effects of an agent's [execute] *)

(** What an execution does to the outside world, in order: running a
    capture command, calling the language model, publishing a task. *)
Inductive Effect :=
| RunCommand (program : string)
| LlmChat
| Publish (topic : Topic) (task : Task).

(** [autoagents::core::error::Error], as far as the executors produce it. *)
Inductive Error :=
| LLMError (msg : string)
| PublishError (msg : string).

(** The outcomes the outside world gives to one execution: each external
    call's result, chosen freely. *)
Record ExtWorld := mkWorld {
  (** [imagesnap] ran, exited with success and the file exists *)
  imagesnap_captured : bool;
  (** same for the [ffmpeg] fallback *)
  ffmpeg_captured : bool;
  (** [fs::read(&output_path)] succeeded *)
  image_readable : bool;
  (** [context.llm().chat(..)]: [inl (response.text())] or [inr e] with
      [e]'s display text *)
  llm_reply : option string + string;
  (** [context.publish(..)]: [None] on success, [Some e] on failure *)
  publish_failure : option string
}.

(** [response.to_string()] of a chat response. *)
Definition response_to_string (r : option string) : string :=
  match r with Some s => s | None => "" end.

(** [CameraAgent::execute] (agents.rs, lines 165-318). *)
Definition camera_execute (w : ExtWorld) (task : Task) : (string + Error) * list Effect :=
  let query := task.(prompt) in
  let capture_success := imagesnap_captured w in
  let effs0 := [RunCommand "imagesnap"] in
  let (capture_success, effs1) :=
    if negb capture_success
    then (ffmpeg_captured w, app effs0 [RunCommand "ffmpeg"])
    else (capture_success, effs0) in
  if negb capture_success then
    (inl "Camera capture failed - no image analysis available", effs1)
  else if negb (image_readable w) then
    (inl "Image file could not be read", effs1)
  else
    match llm_reply w with
    | inl response =>
        let response_text := response_to_string response in
        let response_task :=
          Task_new ("### Camera Analysis Result" ++ String "010"%char response_text) in
        (* a failed publish is only logged *)
        (inl response_text,
         app effs1 [LlmChat; Publish "camera_response" response_task])
    | inr e =>
        let error_msg := "AI analysis failed: " ++ e in
        let error_task :=
          Task_new ("### Camera Analysis Error" ++ String "010"%char error_msg) in
        (inl error_msg, app effs1 [LlmChat; Publish "camera_response" error_task])
    end.

(** [AnalysisAgent::execute] (agents.rs, lines 377-448).  Both
    [.await?] propagate the error of the call. *)
Definition analysis_execute (w : ExtWorld) (task : Task) : (string + Error) * list Effect :=
  if String.eqb task.(prompt) "SELF_TEST" then
    (inl "Self-test completed successfully", [])
  else
    match llm_reply w with
    | inr e => (inr (LLMError e), [LlmChat])
    | inl response =>
        let analysis_result := response_to_string response in
        let effs := [LlmChat; Publish "analysis_response" (Task_new analysis_result)] in
        match publish_failure w with
        | Some e => (inr (PublishError e), effs)
        | None => (inl analysis_result, effs)
        end
    end.

(** ** The doctor agent: ReAct executor and its two tools *)

(** What the reasoning executor decides at one turn. *)
Inductive Decision :=
| CallTool (tool_name : string) (query : string)
| Respond (text : string).

(** The tools' [ToolRuntime::execute] (agents.rs, lines 41-140): the
    topic and task published, and the observation returned; [None] for a
    name that is none of the agent's tools. *)
Definition tool_execute (tool_name query : string) : option (Topic * Task * string) :=
  if String.eqb tool_name "ecg_analysis_tool" then
    Some ("analysis_agent", Task_new query,
          "Analysis request submitted: '" ++ query
          ++ "'. The analysis will be processed shortly.")
  else if String.eqb tool_name "camera_analysis" then
    Some ("camera_requests", Task_new query,
          "Camera analysis request submitted: " ++ query)
  else None.

(** The reasoning loop run by [ReActExecutor] for [DoctorAgent]: at each
    turn the model [llm] sees the transcript and either calls a tool
    (the call is announced as a [ToolCallRequested] event and the tool's
    publish happens) or answers, which ends the task with a
    [TaskComplete] event.  [fuel] is the executor's turn bound. *)
Fixpoint react (fuel : nat) (llm : list string -> Decision) (transcript : list string)
  : list Event * list Effect :=
  match fuel with
  | O => ([], [])
  | S fuel' =>
      match llm transcript with
      | Respond text => ([TaskComplete (TRValue (VReAct text))], [])
      | CallTool name q =>
          match tool_execute name q with
          | Some (tp, t, obs) =>
              let (evs, effs) := react fuel' llm (app transcript [obs]) in
              (ToolCallRequested 0 name q :: evs, Publish tp t :: effs)
          | None =>
              let (evs, effs) := react fuel' llm (app transcript ["unknown tool " ++ name]) in
              (ToolCallRequested 0 name q :: evs, effs)
          end
      end
  end.

(** The doctor node receiving a task on one of its subscribed topics: the
    runtime emits [NewTask] and hands the task to the agent, whose
    execution emits further events; every event goes through
    [handle_events] with [is_analysis_agent = false].  Result: the strings
    sent to the chat window and the agent's effects. *)
Definition doctor_receive (fuel : nat) (llm : list string -> Decision) (t : Task)
  : list string * list Effect :=
  let (evs, effs) := react fuel llm [t.(prompt)] in
  (handle_events false (NewTask 0 t :: evs), effs).

(** A decision is a tool invocation. *)
Definition is_tool_call (e : Effect) : bool :=
  match e with Publish _ _ => true | _ => false end.

(** ** Topic wiring of the three agents (the [run_*_agent] builders) *)

Inductive Agent := DoctorAgent | AnalysisAgent | CameraAgent.

(** The topics given to [.subscribe_topic(..)] when the agent is built
    (agents.rs, lines 482-491, 589-595 and 667-673). *)
Definition subscriptions (a : Agent) : list Topic :=
  match a with
  | DoctorAgent => ["user_messages"; "analysis_response"; "camera_response"]
  | AnalysisAgent => ["analysis_agent"]
  | CameraAgent => ["camera_requests"]
  end.

(** The effects of one execution of an agent on a task it received, the
    outside world's outcomes and (for the doctor) the reasoning model and
    turn bound being arbitrary. *)
Inductive executes : Agent -> Task -> list Effect -> Prop :=
| exec_doctor fuel llm t :
    executes DoctorAgent t (snd (doctor_receive fuel llm t))
| exec_analysis w t :
    executes AnalysisAgent t (snd (analysis_execute w t))
| exec_camera w t :
    executes CameraAgent t (snd (camera_execute w t)).

(** ** The user-message bridge of [run_doctor_agent] (lines 524-547) *)

Definition user_messages_topic : Topic := "user_messages".

(** One message taken from [user_rx]: what is published. *)
Definition bridge_message (message : string) : list (Topic * Task) :=
  if Str.starts_with message "USER_SEND:" then
    let actual_message :=
      match Str.strip_prefix message "USER_SEND:" with
      | Some a => a
      | None => message
      end in
    [(user_messages_topic, Task_new actual_message)]
  else [].

(** ** The chat window ([gui.rs]) *)

Record ChatMessage := mkChatMessage { content : string; is_user : bool }.

Inductive Message :=
| InputChanged (value : string)
| SendMessage
| ReceivedDoctorResponse (response : string)
| Tick.

(** The [iced::Task<Message>] returned by [update]. *)
Inductive Command :=
| TaskNone
| TaskDone (m : Message)
(** [Task::perform] of a sleep of [secs] seconds, then [m] *)
| TaskPerformAfter (secs : nat) (m : Message).

(** [ChatApp]: the transcript and input field, plus the two channel ends
    it holds: what has been sent on [user_sender], what is queued on
    [response_receiver], and whether the latter's mutex is poisoned. *)
Record ChatApp := mkChatApp {
  messages : list ChatMessage;
  input_value : string;
  user_sent : list string;
  response_queue : list string;
  receiver_poisoned : bool
}.

Definition greeting : string :=
  "Hello! I'm your ECG analysis assistant. I can help you analyze ECG data and provide medical recommendations. How can I assist you today?".

(** [ChatApp::new] *)
Definition ChatApp_new : ChatApp :=
  mkChatApp [mkChatMessage greeting false] "" [] [] false.

Definition agent_message (s : string) : ChatMessage := mkChatMessage s false.

(** [ChatApp::update] *)
Definition update (st : ChatApp) (m : Message) : ChatApp * Command :=
  match m with
  | InputChanged value =>
      (mkChatApp st.(messages) value st.(user_sent) st.(response_queue)
                 st.(receiver_poisoned), TaskNone)
  | SendMessage =>
      if negb (Str.trim_is_empty st.(input_value)) then
        let c := st.(input_value) in
        (mkChatApp (app st.(messages) [mkChatMessage c true]) ""
                   (app st.(user_sent) ["USER_SEND:" ++ c])
                   st.(response_queue) st.(receiver_poisoned),
         TaskDone Tick)
      else (st, TaskNone)
  | ReceivedDoctorResponse response =>
      (mkChatApp (app st.(messages) [agent_message response]) st.(input_value)
                 st.(user_sent) st.(response_queue) st.(receiver_poisoned),
       TaskNone)
  | Tick =>
      let st' :=
        if st.(receiver_poisoned) then st
        else mkChatApp (app st.(messages) (map agent_message st.(response_queue)))
                       st.(input_value) st.(user_sent) [] st.(receiver_poisoned) in
      (st', TaskPerformAfter 1 Tick)
  end.

(** A string sent by the doctor node on [response_tx] joins the queue. *)
Definition deliver (st : ChatApp) (s : string) : ChatApp :=
  mkChatApp st.(messages) st.(input_value) st.(user_sent)
            (app st.(response_queue) [s]) st.(receiver_poisoned).

(** The states of a running window: [update] on any message and
    deliveries on the channel, from [ChatApp::new]. *)
Inductive reachable : ChatApp -> Prop :=
| reach_new : reachable ChatApp_new
| reach_update st m : reachable st -> reachable (fst (update st m))
| reach_deliver st s : reachable st -> reachable (deliver st s).

(** * Properties *)

(** ** Routing test *)

Lemma is_agent_result_iff (p : string) :
  is_agent_result p = true <->
  Str.starts_with p "### " = true \/
  exists k, In k keyword_phrases /\ Str.contains p k = true.
Proof.
  unfold is_agent_result, keyword_phrases.
  rewrite !orb_true_iff. simpl. split.
  - intros [[[[[H|H]|H]|H]|H]|H]; [left; exact H|..];
      right; eexists; (split; [|exact H]); tauto.
  - intros [H|[k [Hk Hc]]]; [tauto|].
    destruct Hk as [<-|[<-|[<-|[<-|[<-|[]]]]]]; tauto.
Qed.

Lemma classify_agent_result (p : string) :
  classify p = AgentResult <-> is_agent_result p = true.
Proof. unfold classify; destruct (is_agent_result p); split; congruence. Qed.

(** C1: for a [NewTask] event at a non-analysis handler, the prompt is sent
    to the chat window exactly when it is classified [AgentResult], which
    is the case exactly when it starts with ["### "] or contains one of
    the five keyword phrases; otherwise nothing is sent. *)
Theorem handle_newtask_routing (actor : nat) (t : Task) :
  handle_event false (NewTask actor t) =
    match classify t.(prompt) with
    | AgentResult => [t.(prompt)]
    | UserQuery => []
    end /\
  (classify t.(prompt) = AgentResult <->
   Str.starts_with t.(prompt) "### " = true \/
   exists k, In k keyword_phrases /\ Str.contains t.(prompt) k = true).
Proof.
  split.
  - simpl. unfold classify. destruct (is_agent_result (prompt t)); reflexivity.
  - rewrite classify_agent_result. apply is_agent_result_iff.
Qed.

(** C6: [classify] is a function on every string: it has one value, the
    same on every evaluation, and a prompt with none of the markers is a
    [UserQuery]. *)
Theorem classify_total_deterministic (p : string) :
  exists d : RoutingDecision,
    classify p = d /\ (forall d', classify p = d' -> d' = d) /\
    ((Str.starts_with p "### " = false /\
      forall k, In k keyword_phrases -> Str.contains p k = false) ->
     d = UserQuery).
Proof.
  exists (classify p). split; [reflexivity|]. split; [intros d' <-; reflexivity|].
  intros [Hs Hk]. unfold classify.
  destruct (is_agent_result p) eqn:E; [|reflexivity].
  apply is_agent_result_iff in E as [E|[k [Hin Hc]]]; [congruence|].
  rewrite (Hk k Hin) in Hc. discriminate.
Qed.

(** ** Analysis agent *)

(** C5: on the prompt ["SELF_TEST"] the analysis agent returns the fixed
    success string, whatever the outside world would answer, and has no
    effect: no model call and no publish. *)
Theorem analysis_self_test (w : ExtWorld) :
  analysis_execute w (Task_new "SELF_TEST") =
    (inl "Self-test completed successfully", []).
Proof. reflexivity. Qed.

(** ** Camera agent *)

Lemma camera_publish_cases (w : ExtWorld) (t : Task) (tp : Topic) (t' : Task) :
  In (Publish tp t') (snd (camera_execute w t)) ->
  tp = "camera_response" /\
  ((exists r, t' = Task_new ("### Camera Analysis Result" ++ String "010"%char r)) \/
   (exists e, t' = Task_new ("### Camera Analysis Error" ++ String "010"%char e))).
Proof.
  unfold camera_execute.
  destruct (imagesnap_captured w), (ffmpeg_captured w), (image_readable w),
    (llm_reply w); simpl; intros H;
    repeat (destruct H as [H|H]; [try discriminate H|]); try contradiction;
    injection H as <- <-; eauto 6.
Qed.

(** ** The doctor's executor *)

Lemma doctor_receive_eq (fuel : nat) (llm : list string -> Decision) (t : Task) :
  doctor_receive fuel llm t =
    (handle_events false (NewTask 0 t :: fst (react fuel llm [t.(prompt)])),
     snd (react fuel llm [t.(prompt)])).
Proof. unfold doctor_receive. destruct (react fuel llm [prompt t]); reflexivity. Qed.

(** The doctor publishes only through its two tools. *)
Lemma react_publish_topics (fuel : nat) (llm : list string -> Decision)
  (tr : list string) (tp : Topic) (t' : Task) :
  In (Publish tp t') (snd (react fuel llm tr)) ->
  tp = "analysis_agent" \/ tp = "camera_requests".
Proof.
  revert tr. induction fuel as [|f IH]; intros tr H; simpl in H; [contradiction|].
  destruct (llm tr) as [name q|text]; [|simpl in H; contradiction].
  unfold tool_execute in H.
  destruct (String.eqb name "ecg_analysis_tool");
    [|destruct (String.eqb name "camera_analysis")];
    match type of H with
    | context [react f llm ?tr'] => destruct (react f llm tr') as [evs effs] eqn:E
    end; simpl in H.
  - destruct H as [H|H]; [injection H as <- _; auto|].
    change effs with (snd (evs, effs)) in H. rewrite <- E in H. exact (IH _ H).
  - destruct H as [H|H]; [injection H as <- _; auto|].
    change effs with (snd (evs, effs)) in H. rewrite <- E in H. exact (IH _ H).
  - change effs with (snd (evs, effs)) in H. rewrite <- E in H. exact (IH _ H).
Qed.

(** ** Camera agent's published results *)

Lemma camera_publish_is_result (w : ExtWorld) (t : Task) (tp : Topic) (t' : Task) :
  In (Publish tp t') (snd (camera_execute w t)) ->
  tp = "camera_response" /\ Str.starts_with t'.(prompt) "### " = true.
Proof.
  intros H. apply camera_publish_cases in H as [-> [[r ->]|[e ->]]];
    split; reflexivity.
Qed.

(** The doctor's model in the counterexamples below: it calls the ECG tool
    on the first turn and answers on the next. *)
Definition eager_llm (transcript : list string) : Decision :=
  match transcript with
  | [_] => CallTool "ecg_analysis_tool" "check the ECG"
  | _ => Respond "done"
  end.

Definition camera_ok_world : ExtWorld :=
  mkWorld true false true (inl (Some "patient resting")) None.

(** C10 (as stated, refuted): the camera agent's result reaches the doctor
    as a task classified [AgentResult], yet the doctor agent still runs its
    reasoning on it and invokes a tool. *)
Lemma camera_result_still_reasoned :
  In (Publish "camera_response"
        (Task_new ("### Camera Analysis Result" ++ String "010"%char "patient resting")))
     (snd (camera_execute camera_ok_world (Task_new "look at the patient"))) /\
  classify ("### Camera Analysis Result" ++ String "010"%char "patient resting")
    = AgentResult /\
  In (Publish "analysis_agent" (Task_new "check the ECG"))
     (snd (doctor_receive 2 eager_llm
        (Task_new ("### Camera Analysis Result" ++ String "010"%char "patient resting")))).
Proof. vm_compute. auto 10. Qed.

(** C10 (amended): every task the camera agent publishes, on the success
    path and on the model-failure path alike, goes to ["camera_response"]
    and starts with ["### "], so the doctor's event handler classifies it
    [AgentResult] and sends its prompt to the chat window. *)
Theorem camera_response_tasks_are_results (w : ExtWorld) (t : Task) (tp : Topic) (t' : Task) :
  In (Publish tp t') (snd (camera_execute w t)) ->
  tp = "camera_response" /\ Str.starts_with t'.(prompt) "### " = true /\
  classify t'.(prompt) = AgentResult /\
  forall actor, handle_event false (NewTask actor t') = [t'.(prompt)].
Proof.
  intros H. apply camera_publish_is_result in H as [-> Hs].
  assert (Hc : classify (prompt t') = AgentResult)
    by (apply classify_agent_result; unfold is_agent_result; rewrite Hs; reflexivity).
  split; [reflexivity|]. split; [exact Hs|]. split; [exact Hc|].
  intros actor. destruct (handle_newtask_routing actor t') as [E _].
  rewrite E, Hc. reflexivity.
Qed.

Lemma camera_response_tasks_are_results_witness :
  In (Publish "camera_response"
        (Task_new ("### Camera Analysis Result" ++ String "010"%char "patient resting")))
     (snd (camera_execute camera_ok_world (Task_new "look at the patient"))) /\
  classify ("### Camera Analysis Result" ++ String "010"%char "patient resting")
    = AgentResult.
Proof.
  assert (H : In (Publish "camera_response"
        (Task_new ("### Camera Analysis Result" ++ String "010"%char "patient resting")))
     (snd (camera_execute camera_ok_world (Task_new "look at the patient"))))
    by (simpl; auto).
  split; [exact H|].
  exact (proj1 (proj2 (proj2 (camera_response_tasks_are_results
           camera_ok_world (Task_new "look at the patient") _ _ H)))).
Defined.

(** ** Topic wiring *)

(** C3: whatever an agent publishes while executing a task (the doctor
    through its tools, the analysis and camera agents from [execute]) goes
    to a topic that agent does not subscribe to. *)
Theorem published_topics_not_subscribed (a : Agent) (t : Task) (effs : list Effect)
  (tp : Topic) (t' : Task) :
  executes a t effs -> In (Publish tp t') effs -> ~ In tp (subscriptions a).
Proof.
  intros Hx Hin. destruct Hx as [fuel llm t|w t|w t]; simpl.
  - rewrite doctor_receive_eq in Hin. simpl in Hin.
    apply react_publish_topics in Hin as [->| ->]; simpl; intuition discriminate.
  - unfold analysis_execute in Hin.
    destruct (String.eqb (prompt t) "SELF_TEST"); [contradiction|].
    destruct (llm_reply w); [|simpl in Hin; intuition discriminate].
    assert (Htp : tp = "analysis_response")
      by (destruct (publish_failure w); simpl in Hin;
          intuition (try discriminate; congruence)).
    subst tp. simpl. intuition discriminate.
  - apply camera_publish_is_result in Hin as [-> _]. simpl. intuition discriminate.
Qed.

Lemma published_topics_not_subscribed_witness :
  executes CameraAgent (Task_new "look at the patient")
    (snd (camera_execute camera_ok_world (Task_new "look at the patient"))) /\
  In (Publish "camera_response"
        (Task_new ("### Camera Analysis Result" ++ String "010"%char "patient resting")))
     (snd (camera_execute camera_ok_world (Task_new "look at the patient"))) /\
  ~ In "camera_response" (subscriptions CameraAgent).
Proof.
  assert (Hx : executes CameraAgent (Task_new "look at the patient")
    (snd (camera_execute camera_ok_world (Task_new "look at the patient"))))
    by constructor.
  assert (H : In (Publish "camera_response"
        (Task_new ("### Camera Analysis Result" ++ String "010"%char "patient resting")))
     (snd (camera_execute camera_ok_world (Task_new "look at the patient"))))
    by (simpl; auto).
  split; [exact Hx|]. split; [exact H|].
  exact (published_topics_not_subscribed _ _ _ _ _ Hx H).
Defined.

(** ** Doctor agent on an [AgentResult] *)

(** C2 (as stated, refuted): a message classified [AgentResult] still
    reaches the doctor's reasoning executor, which here invokes the ECG
    tool (a publish to ["analysis_agent"]). *)
Lemma agent_result_tool_invoked :
  classify "### Analysis Report" = AgentResult /\
  In (Publish "analysis_agent" (Task_new "check the ECG"))
     (snd (doctor_receive 2 eager_llm (Task_new "### Analysis Report"))).
Proof. vm_compute. auto. Qed.

(** C2 (amended): for an [AgentResult] message the doctor node's event
    handler sends the prompt straight to the chat window, ahead of
    anything else; the agent's effects, tool invocations included, are
    exactly those its reasoning executor chooses on that prompt. *)
Theorem agent_result_forwarded_not_gated (fuel : nat) (llm : list string -> Decision)
  (t : Task) :
  classify t.(prompt) = AgentResult ->
  doctor_receive fuel llm t =
    (t.(prompt) :: handle_events false (fst (react fuel llm [t.(prompt)])),
     snd (react fuel llm [t.(prompt)])).
Proof.
  intros Hc. rewrite doctor_receive_eq. unfold handle_events. simpl.
  apply classify_agent_result in Hc. rewrite Hc. reflexivity.
Qed.

Lemma agent_result_forwarded_not_gated_witness :
  classify (prompt (Task_new "### Analysis Report")) = AgentResult /\
  doctor_receive 2 eager_llm (Task_new "### Analysis Report") =
    ("### Analysis Report" :: handle_events false
        (fst (react 2 eager_llm ["### Analysis Report"])),
     snd (react 2 eager_llm ["### Analysis Report"])).
Proof.
  assert (Hc : classify (prompt (Task_new "### Analysis Report")) = AgentResult)
    by reflexivity.
  split; [exact Hc|].
  exact (agent_result_forwarded_not_gated 2 eager_llm _ Hc).
Defined.

(** ** External failures *)

(** The camera agent turns every outside failure into an [Ok] text. *)
Lemma camera_execute_never_err (w : ExtWorld) (t : Task) :
  exists s, fst (camera_execute w t) = inl s.
Proof.
  unfold camera_execute.
  destruct (imagesnap_captured w), (ffmpeg_captured w), (image_readable w),
    (llm_reply w); simpl; eauto.
Qed.

Definition llm_down_world : ExtWorld :=
  mkWorld false false false (inr "connection refused") None.

(** C4: when the model call fails, [AnalysisAgent::execute] returns the
    error itself (the [?] on the chat call), not a result text. *)
Theorem analysis_llm_failure_is_err :
  analysis_execute llm_down_world (Task_new "Analyse the latest ECG reading") =
    (inr (LLMError "connection refused"), [LlmChat]).
Proof. reflexivity. Qed.

(** ** The user-message bridge *)

Lemma strip_prefix_starts_with (s pre : string) :
  Str.starts_with s pre = match Str.strip_prefix s pre with Some _ => true | None => false end.
Proof.
  revert s. induction pre as [|c p IH]; intros [|d s]; simpl; try reflexivity.
  destruct (Ascii.eqb c d); simpl; [apply IH|reflexivity].
Qed.

Lemma strip_prefix_app (pre rest : string) :
  Str.strip_prefix (pre ++ rest) pre = Some rest.
Proof. induction pre as [|c p IH]; simpl; [reflexivity|]. rewrite Ascii.eqb_refl. exact IH. Qed.

(** C7 (as stated, refuted): a ["SEND:"] command is skipped, while a
    command without that prefix, ["USER_SEND:hi"], is published. *)
Lemma bridge_send_prefix_skipped :
  bridge_message ("SEND:" ++ "hi") = [] /\
  bridge_message "USER_SEND:hi" = [(user_messages_topic, Task_new "hi")].
Proof. split; reflexivity. Qed.

(** C7 (amended): the bridge publishes exactly the messages carrying the
    prefix ["USER_SEND:"], with the prefix removed, as one task on
    ["user_messages"], and publishes nothing for any other message; the
    window sends each non-blank input with that prefix. *)
Theorem bridge_user_send (message text : string) (st : ChatApp) :
  bridge_message ("USER_SEND:" ++ text) = [(user_messages_topic, Task_new text)] /\
  bridge_message message =
    match Str.strip_prefix message "USER_SEND:" with
    | Some rest => [(user_messages_topic, Task_new rest)]
    | None => []
    end /\
  user_sent (fst (update st SendMessage)) =
    if Str.trim_is_empty st.(input_value) then st.(user_sent)
    else app st.(user_sent) ["USER_SEND:" ++ st.(input_value)].
Proof.
  split; [|split].
  - unfold bridge_message. rewrite strip_prefix_starts_with, strip_prefix_app. reflexivity.
  - unfold bridge_message. rewrite strip_prefix_starts_with.
    destruct (Str.strip_prefix message "USER_SEND:"); reflexivity.
  - simpl. destruct (Str.trim_is_empty (input_value st)); reflexivity.
Qed.

(** ** The chat window's polling *)

(** Nothing in the window panics while holding the receiver's mutex, so a
    running window never sees it poisoned. *)
Lemma reachable_not_poisoned (st : ChatApp) :
  reachable st -> receiver_poisoned st = false.
Proof.
  induction 1 as [|st m _ IH|st s _ IH]; [reflexivity| |exact IH].
  destruct m; simpl; try exact IH.
  - destruct (negb (Str.trim_is_empty (input_value st))); exact IH.
  - rewrite IH. reflexivity.
Qed.

(** Deliveries keep their order in the queue. *)
Lemma deliver_queue (st : ChatApp) (s : string) :
  response_queue (deliver st s) = app (response_queue st) [s].
Proof. reflexivity. Qed.

(** C9: on [Tick] a running window appends every queued response, in
    queue order, to the transcript as a non-user message, empties the
    queue, and returns exactly one command: a [Tick] after one second. *)
Theorem tick_drains_queue (st : ChatApp) :
  reachable st ->
  update st Tick =
    (mkChatApp (app st.(messages) (map agent_message st.(response_queue)))
               st.(input_value) st.(user_sent) [] false,
     TaskPerformAfter 1 Tick).
Proof.
  intros Hr. pose proof (reachable_not_poisoned st Hr) as Hp.
  simpl. rewrite Hp. reflexivity.
Qed.

Lemma tick_drains_queue_witness :
  reachable (deliver (deliver ChatApp_new "first report") "second report") /\
  update (deliver (deliver ChatApp_new "first report") "second report") Tick =
    (mkChatApp [mkChatMessage greeting false;
                mkChatMessage "first report" false;
                mkChatMessage "second report" false] "" [] [] false,
     TaskPerformAfter 1 Tick).
Proof.
  assert (Hr : reachable (deliver (deliver ChatApp_new "first report") "second report"))
    by (repeat constructor).
  split; [exact Hr|].
  exact (tick_drains_queue _ Hr).
Defined.

(** * Further code: the tools, the launcher and the window's invariants *)

(** ** The tools' runtimes with their failure paths *)





(** ** The launcher ([main.rs]) *)

(** The subcommands of [Args]; their options are kept as parsed. *)
Inductive Commands :=
| Host (port : nat) (name host : string)
| Doctor (port : nat) (host_addr name host : string)
| Analysis (port : nat) (host_addr name host : string).

(** The agents a subcommand builds: [run_cluster_host] builds none,
    [run_doctor_agent] the doctor, [run_analysis_agent] the analysis
    agent. *)
Definition agents_started (c : Commands) : list Agent :=
  match c with
  | Host _ _ _ => []
  | Doctor _ _ _ _ => [DoctorAgent]
  | Analysis _ _ _ _ => [AnalysisAgent]
  end.

(** The topics some agent subscribes to in a deployment made of the
    processes [cs]. *)
Definition deployment_subscriptions (cs : list Commands) : list Topic :=
  flat_map subscriptions (flat_map agents_started cs).

(** ** Tools *)





(** ** Deployments *)

(** No subcommand of the launcher starts the camera agent, so in every
    deployment nothing subscribes to ["camera_requests"], the topic the
    doctor's camera tool publishes to. *)
Theorem camera_requests_unserved (cs : list Commands) :
  ~ In CameraAgent (flat_map agents_started cs) /\
  ~ In "camera_requests" (deployment_subscriptions cs).
Proof.
  unfold deployment_subscriptions.
  induction cs as [|c cs [IH1 IH2]]; simpl; [tauto|].
  rewrite flat_map_app. rewrite !in_app_iff.
  destruct c; simpl; intuition discriminate.
Qed.

(** The ECG tool's topic ["analysis_agent"] has a subscriber in a
    deployment exactly when it runs an [analysis] process. *)
Theorem analysis_topic_served_iff (cs : list Commands) :
  In "analysis_agent" (deployment_subscriptions cs) <->
  exists port host_addr name host, In (Analysis port host_addr name host) cs.
Proof.
  unfold deployment_subscriptions.
  induction cs as [|c cs IH]; simpl.
  - split; [contradiction|]. intros (? & ? & ? & ? & []).
  - rewrite flat_map_app, in_app_iff, IH.
    destruct c as [p n h|p a n h|p a n h]; simpl;
      (split; [intros [H|(a1 & a2 & a3 & a4 & H)]
              |intros (a1 & a2 & a3 & a4 & [H|H])]).
    + contradiction.
    + exists a1, a2, a3, a4. right. exact H.
    + discriminate.
    + right. exists a1, a2, a3, a4. exact H.
    + intuition discriminate.
    + exists a1, a2, a3, a4. right. exact H.
    + discriminate.
    + right. exists a1, a2, a3, a4. exact H.
    + exists p, a, n, h. left. reflexivity.
    + exists a1, a2, a3, a4. right. exact H.
    + left. left. reflexivity.
    + right. exists a1, a2, a3, a4. exact H.
Qed.

(** ** Camera agent *)

(** [ffmpeg] is run exactly when [imagesnap] did not capture an image,
    and the model is called only once an image was captured and read. *)
Theorem camera_capture_before_model (w : ExtWorld) (t : Task) :
  (In (RunCommand "ffmpeg") (snd (camera_execute w t)) <-> imagesnap_captured w = false) /\
  (In LlmChat (snd (camera_execute w t)) <->
   (imagesnap_captured w || ffmpeg_captured w) && image_readable w = true).
Proof.
  unfold camera_execute.
  destruct (imagesnap_captured w), (ffmpeg_captured w), (image_readable w),
    (llm_reply w); simpl; intuition congruence.
Qed.

(** The camera agent's published task carries exactly the text it
    returns, under the heading of a result or of an error. *)
Theorem camera_publish_matches_result (w : ExtWorld) (t : Task) (tp : Topic) (t' : Task) :
  In (Publish tp t') (snd (camera_execute w t)) ->
  exists s, fst (camera_execute w t) = inl s /\
    (t'.(prompt) = "### Camera Analysis Result" ++ String "010"%char s \/
     t'.(prompt) = "### Camera Analysis Error" ++ String "010"%char s).
Proof.
  unfold camera_execute.
  destruct (imagesnap_captured w), (ffmpeg_captured w), (image_readable w),
    (llm_reply w); simpl; intros H;
    repeat (destruct H as [H|H]; [try discriminate H|]); try contradiction;
    injection H as <- <-; eexists; (split; [reflexivity|]); simpl; auto.
Qed.

Lemma camera_publish_matches_result_witness :
  In (Publish "camera_response"
        (Task_new ("### Camera Analysis Result" ++ String "010"%char "patient resting")))
     (snd (camera_execute camera_ok_world (Task_new "look at the patient"))) /\
  exists s, fst (camera_execute camera_ok_world (Task_new "look at the patient")) = inl s /\
    ("### Camera Analysis Result" ++ String "010"%char "patient resting"
       = "### Camera Analysis Result" ++ String "010"%char s \/
     "### Camera Analysis Result" ++ String "010"%char "patient resting"
       = "### Camera Analysis Error" ++ String "010"%char s).
Proof.
  assert (H : In (Publish "camera_response"
        (Task_new ("### Camera Analysis Result" ++ String "010"%char "patient resting")))
     (snd (camera_execute camera_ok_world (Task_new "look at the patient"))))
    by (simpl; auto).
  split; [exact H|]. exact (camera_publish_matches_result _ _ _ _ H).
Defined.

(** ** Analysis agent *)

(** The analysis agent publishes only to ["analysis_response"], only after
    a model call, and the published prompt is the text it returns; a
    failed publish makes it return that error. *)
Theorem analysis_publish_matches_result (w : ExtWorld) (t : Task) (tp : Topic) (t' : Task) :
  In (Publish tp t') (snd (analysis_execute w t)) ->
  tp = "analysis_response" /\ In LlmChat (snd (analysis_execute w t)) /\
  fst (analysis_execute w t) =
    match publish_failure w with
    | None => inl t'.(prompt)
    | Some e => inr (PublishError e)
    end.
Proof.
  unfold analysis_execute.
  destruct (String.eqb (prompt t) "SELF_TEST"); [simpl; contradiction|].
  destruct (llm_reply w); [|simpl; intuition discriminate].
  destruct (publish_failure w); simpl; intros [H|[H|[]]]; try discriminate;
    injection H as <- <-; auto.
Qed.

Definition analysis_ok_world : ExtWorld :=
  mkWorld false false false (inl (Some "Sinus rhythm, rate 72.")) None.

Lemma analysis_publish_matches_result_witness :
  In (Publish "analysis_response" (Task_new "Sinus rhythm, rate 72."))
     (snd (analysis_execute analysis_ok_world (Task_new "latest ECG"))) /\
  fst (analysis_execute analysis_ok_world (Task_new "latest ECG"))
    = inl "Sinus rhythm, rate 72.".
Proof.
  assert (H : In (Publish "analysis_response" (Task_new "Sinus rhythm, rate 72."))
     (snd (analysis_execute analysis_ok_world (Task_new "latest ECG"))))
    by (simpl; auto).
  split; [exact H|].
  exact (proj2 (proj2 (analysis_publish_matches_result _ _ _ _ H))).
Defined.

(** The analysis agent publishes the model's text as it is, with no
    heading: a report without any of the markers reaches the doctor's
    event handler as a [UserQuery], and the handler sends nothing to the
    chat window for it. *)
Theorem analysis_unmarked_result_not_forwarded (w : ExtWorld) (t : Task) (r : string) :
  String.eqb t.(prompt) "SELF_TEST" = false ->
  llm_reply w = inl (Some r) ->
  is_agent_result r = false ->
  In (Publish "analysis_response" (Task_new r)) (snd (analysis_execute w t)) /\
  classify r = UserQuery /\
  forall actor, handle_event false (NewTask actor (Task_new r)) = [].
Proof.
  intros Hs Hl Hr. unfold analysis_execute. rewrite Hs, Hl.
  split; [destruct (publish_failure w); simpl; auto|].
  unfold classify. rewrite Hr. split; [reflexivity|].
  intros actor. simpl. rewrite Hr. reflexivity.
Qed.

Lemma analysis_unmarked_result_not_forwarded_witness :
  String.eqb (prompt (Task_new "latest ECG")) "SELF_TEST" = false /\
  llm_reply analysis_ok_world = inl (Some "Sinus rhythm, rate 72.") /\
  is_agent_result "Sinus rhythm, rate 72." = false /\
  classify "Sinus rhythm, rate 72." = UserQuery.
Proof.
  assert (H1 : String.eqb (prompt (Task_new "latest ECG")) "SELF_TEST" = false)
    by reflexivity.
  assert (H2 : llm_reply analysis_ok_world = inl (Some "Sinus rhythm, rate 72."))
    by reflexivity.
  assert (H3 : is_agent_result "Sinus rhythm, rate 72." = false) by reflexivity.
  split; [exact H1|]. split; [exact H2|]. split; [exact H3|].
  exact (proj1 (proj2 (analysis_unmarked_result_not_forwarded _ _ _ H1 H2 H3))).
Defined.

(** ** Event handlers *)

(** The handler run with [is_analysis_agent = true] sends only the
    responses of completed ReAct tasks, in order: never a task's prompt
    and never a plain string result. *)
Theorem analysis_handler_only_react (es : list Event) :
  handle_events true es =
    flat_map (fun e => match e with
                       | TaskComplete (TRValue (VReAct r)) => [r]
                       | _ => []
                       end) es.
Proof.
  unfold handle_events. apply flat_map_ext.
  intros [a t|i n args|[[r|s|]|m]|]; reflexivity.
Qed.

(** Every string the doctor's handler sends comes from an event of the
    stream: the prompt of a new task classified [AgentResult], or the
    value of a completed task. *)
Theorem doctor_handler_output_source (es : list Event) (s : string) :
  In s (handle_events false es) ->
  exists e, In e es /\
    ((exists a t, e = NewTask a t /\ t.(prompt) = s /\ classify s = AgentResult) \/
     e = TaskComplete (TRValue (VReAct s)) \/
     e = TaskComplete (TRValue (VString s))).
Proof.
  unfold handle_events. rewrite in_flat_map. intros [e [Hin Hs]].
  exists e. split; [exact Hin|].
  destruct e as [a t|i n args|[[r|r|]|m]|]; simpl in Hs.
  - left. exists a, t. destruct (is_agent_result (prompt t)) eqn:E;
      [destruct Hs as [<-|[]]|contradiction].
    split; [reflexivity|]. split; [reflexivity|]. unfold classify. rewrite E. reflexivity.
  - contradiction.
  - destruct Hs as [<-|[]]. auto.
  - destruct Hs as [<-|[]]. auto.
  - contradiction.
  - contradiction.
  - contradiction.
Qed.

Lemma doctor_handler_output_source_witness :
  In "### Camera Analysis Result"
     (handle_events false [NewTask 1 (Task_new "### Camera Analysis Result")]) /\
  exists e, In e [NewTask 1 (Task_new "### Camera Analysis Result")] /\
    ((exists a t, e = NewTask a t /\ t.(prompt) = "### Camera Analysis Result" /\
                  classify "### Camera Analysis Result" = AgentResult) \/
     e = TaskComplete (TRValue (VReAct "### Camera Analysis Result")) \/
     e = TaskComplete (TRValue (VString "### Camera Analysis Result"))).
Proof.
  assert (H : In "### Camera Analysis Result"
     (handle_events false [NewTask 1 (Task_new "### Camera Analysis Result")]))
    by (simpl; auto).
  split; [exact H|]. exact (doctor_handler_output_source _ _ H).
Defined.

(** ** The chat window's invariants *)

(** The command the window sends for a user message of its transcript. *)
Definition user_command (m : ChatMessage) : string := "USER_SEND:" ++ m.(content).

Lemma filter_user_agent_messages (l : list string) :
  filter is_user (map agent_message l) = [].
Proof. induction l as [|s l IH]; simpl; [reflexivity|exact IH]. Qed.

Lemma update_messages_grow (st : ChatApp) (m : Message) :
  exists added, messages (fst (update st m)) = app (messages st) added.
Proof.
  destruct m as [v| |r|]; simpl.
  - exists []. rewrite app_nil_r. reflexivity.
  - destruct (negb (Str.trim_is_empty (input_value st))); simpl; eauto.
    exists []. rewrite app_nil_r. reflexivity.
  - eauto.
  - destruct (receiver_poisoned st); simpl; eauto.
    exists []. rewrite app_nil_r. reflexivity.
Qed.

(** The transcript only grows: no message updates or deliveries remove or
    change an earlier message. *)
Theorem transcript_append_only (st : ChatApp) (m : Message) (s : string) :
  (exists added, messages (fst (update st m)) = app (messages st) added) /\
  messages (deliver st s) = messages st.
Proof. split; [apply update_messages_grow|reflexivity]. Qed.

(** A running window's transcript always begins with the greeting. *)
Theorem reachable_starts_with_greeting (st : ChatApp) :
  reachable st -> exists rest, messages st = mkChatMessage greeting false :: rest.
Proof.
  induction 1 as [|st m _ [rest IH]|st s _ [rest IH]].
  - exists []. reflexivity.
  - destruct (update_messages_grow st m) as [added E].
    rewrite E, IH. exists (app rest added). reflexivity.
  - exists rest. exact IH.
Qed.

Lemma reachable_starts_with_greeting_witness :
  reachable (fst (update (mkChatApp [mkChatMessage greeting false] "hi" [] [] false)
                         SendMessage)) /\
  exists rest,
    messages (fst (update (mkChatApp [mkChatMessage greeting false] "hi" [] [] false)
                          SendMessage))
    = mkChatMessage greeting false :: rest.
Proof.
  assert (H : reachable (fst (update (mkChatApp [mkChatMessage greeting false] "hi" [] [] false)
                                     SendMessage))).
  { apply reach_update.
    change (mkChatApp [mkChatMessage greeting false] "hi" [] [] false)
      with (fst (update ChatApp_new (InputChanged "hi"))).
    apply reach_update, reach_new. }
  split; [exact H|]. exact (reachable_starts_with_greeting _ H).
Defined.

Lemma user_sent_invariant (st : ChatApp) :
  reachable st ->
  user_sent st = map user_command (filter is_user (messages st)) /\
  Forall (fun m => is_user m = true -> Str.trim_is_empty (content m) = false)
         (messages st).
Proof.
  induction 1 as [|st m _ [IH1 IH2]|st s _ IH]; [split; repeat constructor; discriminate| |exact IH].
  destruct m as [v| |r|]; simpl.
  - split; assumption.
  - destruct (Str.trim_is_empty (input_value st)) eqn:E; simpl; [split; assumption|].
    rewrite filter_app, map_app, IH1. simpl. split; [reflexivity|].
    apply Forall_app. split; [exact IH2|]. constructor; [intros _; exact E|constructor].
  - rewrite filter_app, map_app, IH1. simpl. rewrite app_nil_r. split; [reflexivity|].
    apply Forall_app. split; [exact IH2|]. constructor; [discriminate|constructor].
  - destruct (receiver_poisoned st); simpl; [split; assumption|].
    rewrite filter_app, map_app, filter_user_agent_messages, IH1. simpl.
    rewrite app_nil_r. split; [reflexivity|].
    apply Forall_app. split; [exact IH2|].
    apply Forall_forall. intros x Hx. apply in_map_iff in Hx as [y [<- _]]. discriminate.
Qed.



(** What the window sends, once through the doctor node's bridge, is
    published as the user's messages in order, each as one task on
    ["user_messages"], a topic the doctor agent subscribes to. *)
Theorem window_bridge_publishes_user_messages (st : ChatApp) :
  reachable st ->
  flat_map bridge_message (user_sent st) =
    map (fun m => (user_messages_topic, Task_new (content m)))
        (filter is_user (messages st)) /\
  In user_messages_topic (subscriptions DoctorAgent).
Proof.
  intros Hr. split; [|simpl; auto].
  rewrite (proj1 (user_sent_invariant st Hr)).
  induction (filter is_user (messages st)) as [|m l IH]; simpl; [reflexivity|].
  rewrite IH. reflexivity.
Qed.

(** A window in which the user typed "hi" and pressed Send. *)
Definition typed_hi_sent : ChatApp :=
  fst (update (fst (update ChatApp_new (InputChanged "hi"))) SendMessage).

Lemma typed_hi_sent_reachable : reachable typed_hi_sent.
Proof. unfold typed_hi_sent. apply reach_update, reach_update, reach_new. Qed.


Lemma window_bridge_publishes_user_messages_witness :
  reachable typed_hi_sent /\
  flat_map bridge_message (user_sent typed_hi_sent) =
    map (fun m => (user_messages_topic, Task_new (content m)))
        (filter is_user (messages typed_hi_sent)) /\
  flat_map bridge_message (user_sent typed_hi_sent) =
    [(user_messages_topic, Task_new "hi")].
Proof.
  split; [exact typed_hi_sent_reachable|].
  split; [exact (proj1 (window_bridge_publishes_user_messages _ typed_hi_sent_reachable))|].
  reflexivity.
Defined.
